(** * timestamp: a 64-bit nanosecond time stamp, checked against its Go source

    The development embeds [timestamp.go] (package [timestamp]) together
    with the part of Go's [time] package that it calls.  Go's [int64] is
    carried by [Z] with the wrap-around written out; [time.Time] is the
    record of its wall-clock reading. *)

From Stdlib Require Import ZArith Lia Bool.

Local Open Scope Z_scope.

(** ** Go's signed 64-bit integers *)

Module Int64.

Definition min_int : Z := - 2 ^ 63.
Definition max_int : Z := 2 ^ 63 - 1.

Definition in_range (z : Z) : Prop := min_int <= z <= max_int.

(** Two's complement reduction of a mathematical integer. *)
Definition wrap (z : Z) : Z := (z + 2 ^ 63) mod 2 ^ 64 - 2 ^ 63.

Definition add (a b : Z) : Z := wrap (a + b).
Definition sub (a b : Z) : Z := wrap (a - b).
Definition mul (a b : Z) : Z := wrap (a * b).
Definition neg (a : Z) : Z := wrap (- a).

(** Go's [/] and [%] truncate toward zero; they are only reached below
    with a nonzero divisor. *)
Definition quot (a b : Z) : Z := wrap (Z.quot a b).
Definition rem (a b : Z) : Z := Z.rem a b.

(** [>>] on a signed operand is the arithmetic shift. *)
Definition shr (a n : Z) : Z := Z.shiftr a n.

End Int64.

(** ** The part of package [time] used by the time stamps

    Package [time] is Go's standard library, outside this repository; it
    is modelled after its documented behaviour, function by function.
    A [Time] is read through [sec()] (seconds since January 1, year 1,
    an [int64]), [nsec()] (in [0, 999999999]) and its location pointer.
    The monotonic clock reading is left out: [tZero] and every value
    built by [TS.Time] carry none, so each [Sub], [Equal], [Before] and
    [After] of this package takes the wall-clock branch. *)

Module time.

Inductive Location : Type :=
| utcLoc
| localLoc
| fixedZone (offset : Z).

(** [loc = None] is the nil pointer, which a [Time] reads as UTC. *)
Record Time : Type := mkTime {
  sec : Z;
  nsec : Z;
  loc : option Location
}.

Definition Duration : Type := Z.

Definition Nanosecond : Duration := 1.
Definition Microsecond : Duration := 1000 * Nanosecond.
Definition Millisecond : Duration := 1000 * Microsecond.
Definition Second : Duration := 1000 * Millisecond.
Definition Minute : Duration := 60 * Second.
Definition Hour : Duration := 60 * Minute.

Definition minDuration : Duration := Int64.min_int.
Definition maxDuration : Duration := Int64.max_int.

Definition unixToInternal : Z :=
  (1969 * 365 + 1969 / 4 - 1969 / 100 + 1969 / 400) * 86400.

(** The representation invariant of a [Time]. *)
Definition wf (t : Time) : Prop :=
  Int64.in_range (sec t) /\ 0 <= nsec t < 1000000000.

(** [time.Time{}] *)
Definition zeroTime : Time := mkTime 0 0 None.

Definition IsZero (t : Time) : bool := (sec t =? 0) && (nsec t =? 0).

Definition Equal (t u : Time) : bool :=
  (sec t =? sec u) && (nsec t =? nsec u).

Definition Before (t u : Time) : bool :=
  (sec t <? sec u) || ((sec t =? sec u) && (nsec t <? nsec u)).

Definition After (t u : Time) : bool :=
  (sec u <? sec t) || ((sec t =? sec u) && (nsec u <? nsec t)).

Definition unixTime (s ns : Z) : Time :=
  mkTime (Int64.add s unixToInternal) ns (Some localLoc).

Definition Unix (s ns : Z) : Time :=
  if (ns <? 0) || (1000000000 <=? ns) then
    let n := Int64.quot ns 1000000000 in
    let s1 := Int64.add s n in
    let ns1 := Int64.sub ns (Int64.mul n 1000000000) in
    if ns1 <? 0 then unixTime (Int64.sub s1 1) (Int64.add ns1 1000000000)
    else unixTime s1 ns1
  else unixTime s ns.

(** [setLoc] stores the nil pointer for UTC. *)
Definition UTC (t : Time) : Time := mkTime (sec t) (nsec t) None.

(** [addSec]: the seconds saturate instead of overflowing. *)
Definition addSec (t : Time) (d : Z) : Time :=
  let sum := Int64.add (sec t) d in
  if Bool.eqb (sec t <? sum) (0 <? d) then mkTime sum (nsec t) (loc t)
  else if 0 <? d then mkTime Int64.max_int (nsec t) (loc t)
  else mkTime (- Int64.max_int) (nsec t) (loc t).

Definition Add (t : Time) (d : Duration) : Time :=
  let dsec := Int64.quot d 1000000000 in
  let ns := nsec t + Int64.rem d 1000000000 in
  if 1000000000 <=? ns then
    addSec (mkTime (sec t) (ns - 1000000000) (loc t)) (Int64.add dsec 1)
  else if ns <? 0 then
    addSec (mkTime (sec t) (ns + 1000000000) (loc t)) (Int64.sub dsec 1)
  else addSec (mkTime (sec t) ns (loc t)) dsec.

(** [t.Sub(u)]: the difference, or the extreme duration when the
    difference does not fit. *)
Definition Sub (t u : Time) : Duration :=
  let d := Int64.add (Int64.mul (Int64.sub (sec t) (sec u)) Second)
                     (nsec t - nsec u) in
  if Equal (Add u d) t then d
  else if Before t u then minDuration
  else maxDuration.

(** [for d1>>63 != 1 { d1 <<= 1 }]: the divisor moved up until its top
    bit is set.  [fuel] bounds the iterations; a positive divisor needs
    at most 63 of them. *)
Fixpoint normalize (fuel : nat) (d1 : Z) : Z :=
  match fuel with
  | O => d1
  | S fuel' =>
      if Z.shiftr d1 63 =? 1 then d1
      else normalize fuel' (Z.shiftl d1 1 mod 2 ^ 64)
  end.

(** The subtract-and-halve loop of [div].  Each of the two-word values
    [(u1, u0)] and [(d1, d0)] is carried as one integer: the comparison,
    the subtraction with borrow and the shift across the words are the
    comparison, subtraction and halving of that integer.  The loop ends
    when the divisor is back to [d], after at most 128 rounds. *)
Fixpoint remLoop (fuel : nat) (u dd d : Z) : Z :=
  let u' := if dd <=? u then u - dd else u in
  match fuel with
  | O => u'
  | S fuel' => if dd =? d then u' else remLoop fuel' u' (Z.shiftr dd 1) d
  end.

Definition rem128 (u d : Z) : Z :=
  remLoop 128 u (normalize 64 d * 2 ^ 64) d.

(** [div]: the remainder of the time since the zero time by [d].  The
    first two cases are the shortcuts of the library; the general case
    takes the nanosecond count as a 128-bit number. *)
Definition div (t : Time) (d : Duration) : Duration :=
  let neg := sec t <? 0 in
  let ns0 := if neg then - nsec t else nsec t in
  let s0 := if neg then Int64.neg (sec t) else sec t in
  let ns := if neg && (ns0 <? 0) then ns0 + 1000000000 else ns0 in
  let s := if neg && (ns0 <? 0) then Int64.sub s0 1 else s0 in
  let r :=
    if (d <? Second) && (Z.rem Second (d + d) =? 0) then Z.rem ns d
    else if Z.rem d Second =? 0 then
      let d1 := Z.quot d Second in
      Int64.add (Int64.mul (Z.rem s d1) Second) ns
    else rem128 ((s mod 2 ^ 64) * 1000000000 + ns) d in
  if neg && negb (r =? 0) then Int64.sub d r else r.

Definition Truncate (t : Time) (d : Duration) : Time :=
  if d <=? 0 then t else Add t (Int64.neg (div t d)).

Definition internalToUnix : Z := - unixToInternal.

(** [unixSec] *)
Definition unixSec (t : Time) : Z := Int64.add (sec t) internalToUnix.

(** The method [t.Unix()]; the name [Unix] is the constructor above. *)
Definition Time_Unix (t : Time) : Z := unixSec t.

Definition UnixNano (t : Time) : Z :=
  Int64.add (Int64.mul (unixSec t) 1000000000) (nsec t).

(** [t.In(loc)] panics on a nil location ([None] as result); [setLoc]
    stores the nil pointer for UTC. *)
Definition In (t : Time) (l : option Location) : option Time :=
  match l with
  | None => None
  | Some utcLoc => Some (mkTime (sec t) (nsec t) None)
  | Some l' => Some (mkTime (sec t) (nsec t) (Some l'))
  end.

(** [Date] refuses a nil location.  With a location, the calendar and
    zone computation of the library is [civil], which this package
    does not depend on. *)
Section Calendar.

Variable civil : Z -> Z -> Z -> Z -> Z -> Z -> Z -> Location -> Time.

Definition Date (year month day hour min sec nsec : Z)
           (l : option Location) : option Time :=
  match l with
  | None => None
  | Some l' => Some (civil year month day hour min sec nsec l')
  end.

End Calendar.

End time.

(** ** Package [timestamp] *)

(** [type TS time.Duration] *)
Definition TS : Type := Z.

Definition MaxTS : TS := Z.shiftl 1 63 - 1.
Definition MinTS : TS := Z.shiftl (-1) 63.

(** Reference [time.Time] for the time stamp 0. *)
Definition tZero : time.Time := time.UTC (time.Unix 0 0).

Definition Timestamp (t : time.Time) : TS :=
  if time.IsZero t then 0 else time.Sub t tZero.

Definition OutOfRange (t : time.Time) : bool :=
  let d := time.Sub t tZero in
  negb (time.IsZero t) && ((d <=? MinTS) || (MaxTS <=? d)).

Definition DurationToTS (d : time.Duration) : TS := d.

Definition Zero : TS := Timestamp tZero.

Definition Unix (sec nsec : Z) : TS := Timestamp (time.Unix sec nsec).

Definition Duration (ts : TS) : time.Duration := ts.

Definition IsZero (ts : TS) : bool := ts =? 0.

Definition Time (ts : TS) : time.Time :=
  if IsZero ts then time.zeroTime else time.Add tZero (Duration ts).

Definition Add (ts : TS) (d : time.Duration) : TS := Int64.add ts d.

Definition AddTS (ts ts2 : TS) : TS := Int64.add ts ts2.

Section AddDate.

Variable civil : Z -> Z -> Z -> Z -> Z -> Z -> Z -> time.Location -> time.Time.

(** [None] is the panic of [time.Date]. *)
Definition AddDate (ts : TS) (years months days : Z) : option TS :=
  match time.Date civil years months days 0 0 0 0 None with
  | None => None
  | Some date => Some (AddTS ts (Timestamp date))
  end.

End AddDate.

Definition Sub (ts ts2 : TS) : time.Duration := Duration (Int64.sub ts ts2).

Definition SubTime (ts : TS) (t : time.Time) : time.Duration :=
  time.Sub (Time ts) t.

Definition After (ts ts2 : TS) : bool := ts2 <? ts.

Definition AfterTime (ts : TS) (t : time.Time) : bool := time.After (Time ts) t.

Definition Before (ts ts2 : TS) : bool := ts <? ts2.

Definition BeforeTime (ts : TS) (t : time.Time) : bool :=
  time.Before (Time ts) t.

Definition Equal (ts ts2 : TS) : bool := ts =? ts2.

Definition EqualTime (ts : TS) (t : time.Time) : bool := time.Equal (Time ts) t.

Definition EqualTS (ts ts2 : TS) : bool := ts =? ts2.

(** [(ts/TS(d) + (ts%TS(d))>>63) * TS(d)]: the shift binds tighter than
    the sum. *)
Definition Truncate (ts : TS) (d : time.Duration) : TS :=
  if d <=? 0 then ts
  else Int64.mul (Int64.add (Int64.quot ts d) (Int64.shr (Int64.rem ts d) 63)) d.

Definition TruncateTime (ts : TS) (d : time.Duration) : time.Time :=
  time.Truncate (Time ts) d.

Definition In (ts : TS) (l : option time.Location) : option time.Time :=
  time.In (Time ts) l.

(** [time.UTC], the address of [utcLoc]. *)
Definition Location (ts : TS) : option time.Location := Some time.utcLoc.

(** The method [ts.Unix()]; the name [Unix] is the constructor above. *)
Definition TS_Unix (ts : TS) : Z := time.Time_Unix (Time ts).

Definition UnixNano (ts : TS) : Z := time.UnixNano (Time ts).

(** ** Reading a [Time] as a count of nanoseconds *)

(** Nanoseconds since the zero time, in full width. *)
Definition nanos (t : time.Time) : Z := time.sec t * 1000000000 + time.nsec t.

(** The epoch, in nanoseconds since the zero time. *)
Definition epochNs : Z := time.unixToInternal * 1000000000.

(** Full-width offset of [t] from the epoch. *)
Definition offset (t : time.Time) : Z := nanos t - epochNs.

(** A value cut to the 64-bit range. *)
Definition clamp (z : Z) : Z := Z.max MinTS (Z.min MaxTS z).

(** The instant 2^63 ns after the epoch, one nanosecond past [MaxTS]. *)
Definition pastMax : time.Time :=
  time.mkTime (time.unixToInternal + 9223372036) 854775808 None.

(** * Proofs *)

(** ** Arithmetic on 64 bits *)

Lemma pow63 : 2 ^ 63 = 9223372036854775808.
Proof. reflexivity. Qed.

Lemma pow64 : 2 ^ 64 = 18446744073709551616.
Proof. reflexivity. Qed.

Lemma MaxTS_val : MaxTS = 9223372036854775807.
Proof. reflexivity. Qed.

Lemma MinTS_val : MinTS = -9223372036854775808.
Proof. reflexivity. Qed.

Lemma epochNs_val : epochNs = 62135596800000000000.
Proof. reflexivity. Qed.

Lemma tZero_val : tZero = time.mkTime 62135596800 0 None.
Proof. reflexivity. Qed.

Lemma nanos_tZero : nanos tZero = epochNs.
Proof. reflexivity. Qed.

Lemma Time_0 : Time 0 = time.zeroTime.
Proof. reflexivity. Qed.

(** Unfolds the 64-bit bounds to numerals, for [lia]. *)
Ltac bounds :=
  cbv [Int64.in_range Int64.min_int Int64.max_int time.minDuration
       time.maxDuration time.wf] in *;
  rewrite ?MaxTS_val, ?MinTS_val, ?epochNs_val, ?pow63, ?pow64 in *.

Lemma wrap_spec (z : Z) :
  exists k, Int64.wrap z = z + k * 18446744073709551616
            /\ Int64.in_range (Int64.wrap z).
Proof.
  unfold Int64.wrap. bounds.
  exists (- ((z + 9223372036854775808) / 18446744073709551616)).
  pose proof (Z.div_mod (z + 9223372036854775808) 18446744073709551616).
  pose proof (Z.mod_pos_bound (z + 9223372036854775808) 18446744073709551616).
  lia.
Qed.

Lemma wrap_in_range (z : Z) : Int64.in_range (Int64.wrap z).
Proof. destruct (wrap_spec z) as (k & _ & H). exact H. Qed.

Lemma wrap_small (z : Z) : Int64.in_range z -> Int64.wrap z = z.
Proof.
  intros Hz. destruct (wrap_spec z) as (k & Hk & Hr). bounds. lia.
Qed.

(** Reduction commutes with the ring operations. *)
Lemma wrap_congr (a b : Z) :
  (exists k, a = b + k * 18446744073709551616) -> Int64.wrap a = Int64.wrap b.
Proof.
  intros [k ->].
  destruct (wrap_spec (b + k * 18446744073709551616)) as (k1 & H1 & R1).
  destruct (wrap_spec b) as (k2 & H2 & R2). bounds. lia.
Qed.

Lemma shr63 (r : Z) :
  Int64.in_range r -> Int64.shr r 63 = if r <? 0 then -1 else 0.
Proof.
  intros Hr. unfold Int64.shr. rewrite Z.shiftr_div_pow2 by lia.
  rewrite pow63. bounds.
  destruct (Z.ltb_spec r 0).
  - symmetry. apply (Z.div_unique r 9223372036854775808 (-1) (r + 9223372036854775808)); lia.
  - apply Z.div_small. lia.
Qed.

(** Truncated division by a positive divisor, by the sign of the
    dividend. *)
Lemma quot_rem_sign (a d : Z) :
  0 < d ->
  a = d * Z.quot a d + Z.rem a d
  /\ ((0 <= a /\ 0 <= Z.rem a d < d /\ 0 <= Z.quot a d)
      \/ (a < 0 /\ - d < Z.rem a d <= 0 /\ Z.quot a d <= 0)).
Proof.
  intros Hd. split; [apply Z.quot_rem; lia|].
  destruct (Z.lt_ge_cases a 0) as [Ha | Ha].
  - right. split; [assumption|]. split.
    + apply Z.rem_bound_pos_neg; lia.
    + pose proof (Z.quot_opp_l a d ltac:(lia)).
      pose proof (Z.quot_pos (- a) d ltac:(lia) Hd). lia.
  - left. split; [assumption|]. split.
    + apply Z.rem_bound_pos_pos; lia.
    + apply Z.quot_pos; lia.
Qed.

(** The quotient corrected by the sign of the remainder is the floor. *)
Lemma quot_floor (a d : Z) :
  0 < d -> Z.quot a d + (if Z.rem a d <? 0 then -1 else 0) = a / d.
Proof.
  intros Hd. destruct (quot_rem_sign a d Hd) as (Hqr & Hs).
  destruct (Z.ltb_spec (Z.rem a d) 0) as [Hneg | Hpos].
  - apply (Z.div_unique a d _ (Z.rem a d + d)); lia.
  - apply (Z.div_unique a d _ (Z.rem a d)); lia.
Qed.

Lemma quot_in_range (a d : Z) :
  Int64.in_range a -> 0 < d -> Int64.in_range (Z.quot a d).
Proof.
  intros Ha Hd. destruct (quot_rem_sign a d Hd) as (Hqr & Hs). bounds. nia.
Qed.

Lemma rem_in_range (a d : Z) :
  Int64.in_range a -> 0 < d -> Int64.in_range (Z.rem a d).
Proof.
  intros Ha Hd. destruct (quot_rem_sign a d Hd) as (Hqr & Hs). bounds. nia.
Qed.

(** ** [time.Time] as a nanosecond count *)

Lemma Equal_nanos (t u : time.Time) :
  time.wf t -> time.wf u -> time.Equal t u = (nanos t =? nanos u).
Proof.
  intros Ht Hu. unfold time.Equal, nanos. bounds.
  destruct (Z.eqb_spec (time.sec t) (time.sec u));
    destruct (Z.eqb_spec (time.nsec t) (time.nsec u)); simpl;
    symmetry; first [apply Z.eqb_eq | apply Z.eqb_neq]; lia.
Qed.

Lemma Before_nanos (t u : time.Time) :
  time.wf t -> time.wf u -> time.Before t u = (nanos t <? nanos u).
Proof.
  intros Ht Hu. unfold time.Before, nanos. bounds.
  destruct (Z.ltb_spec (time.sec t) (time.sec u));
    destruct (Z.eqb_spec (time.sec t) (time.sec u));
    destruct (Z.ltb_spec (time.nsec t) (time.nsec u)); simpl;
    symmetry; first [apply Z.ltb_lt | apply Z.ltb_ge]; lia.
Qed.

Lemma After_nanos (t u : time.Time) :
  time.wf t -> time.wf u -> time.After t u = (nanos u <? nanos t).
Proof.
  intros Ht Hu. unfold time.After, nanos. bounds.
  destruct (Z.ltb_spec (time.sec u) (time.sec t));
    destruct (Z.eqb_spec (time.sec t) (time.sec u));
    destruct (Z.ltb_spec (time.nsec u) (time.nsec t)); simpl;
    symmetry; first [apply Z.ltb_lt | apply Z.ltb_ge]; lia.
Qed.

Lemma IsZero_nanos (t : time.Time) :
  time.wf t -> time.IsZero t = (nanos t =? 0).
Proof.
  intros Ht. unfold time.IsZero, nanos. bounds.
  destruct (Z.eqb_spec (time.sec t) 0);
    destruct (Z.eqb_spec (time.nsec t) 0); simpl;
    symmetry; first [apply Z.eqb_eq | apply Z.eqb_neq]; lia.
Qed.

(** Seconds move without saturating while the sum fits. *)
Lemma addSec_exact (t : time.Time) (d : Z) :
  Int64.in_range (time.sec t + d) ->
  time.addSec t d = time.mkTime (time.sec t + d) (time.nsec t) (time.loc t).
Proof.
  intros Hs. unfold time.addSec, Int64.add. rewrite (wrap_small _ Hs).
  destruct (Z.ltb_spec (time.sec t) (time.sec t + d));
    destruct (Z.ltb_spec 0 d); simpl; try reflexivity; lia.
Qed.

(** [Add] is exact on the nanosecond count while the seconds stay far
    from the ends of [int64]. *)
Lemma Add_nanos (t : time.Time) (d : time.Duration) :
  time.wf t -> Int64.in_range d ->
  - 2 ^ 62 <= time.sec t <= 2 ^ 62 ->
  time.wf (time.Add t d)
  /\ nanos (time.Add t d) = nanos t + d
  /\ time.loc (time.Add t d) = time.loc t.
Proof.
  intros Ht Hd Hs. change (2 ^ 62) with 4611686018427387904 in Hs.
  destruct (quot_rem_sign d 1000000000 ltac:(lia)) as (Hqr & Hsg).
  pose proof (quot_in_range d 1000000000 Hd ltac:(lia)) as Hq.
  assert (Hqb : -9223372037 <= Z.quot d 1000000000 <= 9223372037)
    by (bounds; lia).
  unfold time.Add, Int64.quot, Int64.rem, Int64.add, Int64.sub.
  rewrite (wrap_small _ Hq).
  rewrite (wrap_small (Z.quot d 1000000000 + 1)) by (bounds; lia).
  rewrite (wrap_small (Z.quot d 1000000000 - 1)) by (bounds; lia).
  destruct (Z.leb_spec 1000000000 (time.nsec t + Z.rem d 1000000000));
    [|destruct (Z.ltb_spec (time.nsec t + Z.rem d 1000000000) 0)];
    rewrite addSec_exact by (simpl; bounds; lia);
    unfold nanos, time.wf; simpl; bounds;
    (split; [|split]; [lia | lia | reflexivity]).
Qed.

Lemma tZero_wf : time.wf tZero.
Proof. rewrite tZero_val. unfold time.wf. simpl. bounds. lia. Qed.

Lemma Add_tZero (d : time.Duration) :
  Int64.in_range d ->
  time.wf (time.Add tZero d)
  /\ nanos (time.Add tZero d) = epochNs + d
  /\ time.loc (time.Add tZero d) = None.
Proof.
  intros Hd. apply (Add_nanos tZero d tZero_wf Hd).
  rewrite tZero_val. simpl. lia.
Qed.

(** The raw difference of [Sub] is the offset reduced to 64 bits. *)
Lemma Sub_raw (t : time.Time) :
  Int64.add (Int64.mul (Int64.sub (time.sec t) (time.sec tZero)) time.Second)
            (time.nsec t - time.nsec tZero)
  = Int64.wrap (offset t).
Proof.
  unfold Int64.add, Int64.mul, Int64.sub, offset, nanos.
  rewrite tZero_val, epochNs_val. simpl time.sec. simpl time.nsec.
  change time.Second with 1000000000.
  destruct (wrap_spec (time.sec t - 62135596800)) as (k1 & -> & _).
  destruct (wrap_spec ((time.sec t - 62135596800 + k1 * 18446744073709551616)
                       * 1000000000)) as (k2 & -> & _).
  apply wrap_congr. exists (k1 * 1000000000 + k2). lia.
Qed.

(** [Sub] against the epoch is the full-width offset cut to 64 bits. *)
Lemma Sub_tZero (t : time.Time) :
  time.wf t -> time.Sub t tZero = clamp (offset t).
Proof.
  intros Ht. unfold time.Sub. rewrite Sub_raw.
  pose proof (wrap_in_range (offset t)) as Hw.
  destruct (Add_tZero _ Hw) as (Hwf & Hn & _).
  rewrite (Equal_nanos _ _ Hwf Ht), Hn.
  rewrite (Before_nanos _ _ Ht tZero_wf), nanos_tZero.
  destruct (wrap_spec (offset t)) as (k & Hk & _).
  unfold clamp, offset in *. bounds.
  destruct (Z.eqb_spec (62135596800000000000 + Int64.wrap (nanos t - 62135596800000000000))
                       (nanos t)) as [He | Hne].
  - lia.
  - destruct (Z.ltb_spec (nanos t) 62135596800000000000); lia.
Qed.

Lemma nanos_inj (t u : time.Time) :
  time.wf t -> time.wf u ->
  nanos t = nanos u -> time.loc t = time.loc u -> t = u.
Proof.
  destruct t as [s n l], u as [s' n' l']. unfold nanos. simpl.
  intros Ht Hu Hn Hl. bounds. simpl in *.
  assert (s = s') by lia. assert (n = n') by lia. congruence.
Qed.

(** ** The time stamp operations *)

Lemma OutOfRange_nonzero (t : time.Time) :
  time.IsZero t = false ->
  OutOfRange t
  = (time.Sub t tZero <=? MinTS) || (MaxTS <=? time.Sub t tZero).
Proof. intros Hz. unfold OutOfRange. rewrite Hz. reflexivity. Qed.

(** [Time] in nanoseconds: the zero time for 0, else epoch plus [ts]. *)
Lemma Time_nanos (ts : TS) :
  Int64.in_range ts ->
  time.wf (Time ts)
  /\ nanos (Time ts) = (if ts =? 0 then 0 else epochNs + ts)
  /\ time.loc (Time ts) = None.
Proof.
  intros Hts. unfold Time, IsZero, Duration.
  destruct (Z.eqb_spec ts 0) as [-> | Hne].
  - unfold time.wf, nanos. simpl. bounds. repeat split; lia.
  - apply (Add_tZero ts Hts).
Qed.

(** [Truncate] for a positive duration is the floor multiple, reduced to
    64 bits. *)
Lemma Truncate_wrap (ts : TS) (d : time.Duration) :
  Int64.in_range ts -> Int64.in_range d -> 0 < d ->
  Truncate ts d = Int64.wrap (d * (ts / d)).
Proof.
  intros Hts Hd Hpos. unfold Truncate.
  destruct (Z.leb_spec d 0); [lia|].
  unfold Int64.mul, Int64.add, Int64.quot, Int64.rem.
  rewrite (wrap_small _ (quot_in_range ts d Hts Hpos)).
  rewrite (shr63 _ (rem_in_range ts d Hts Hpos)).
  rewrite (quot_floor ts d Hpos).
  assert (Hf : Int64.in_range (ts / d)).
  { pose proof (Z.div_mod ts d ltac:(lia)).
    pose proof (Z.mod_pos_bound ts d Hpos). bounds. nia. }
  rewrite (wrap_small _ Hf). f_equal. lia.
Qed.

Lemma Truncate_floor (ts : TS) (d : time.Duration) :
  Int64.in_range ts -> Int64.in_range d -> 0 < d ->
  MinTS <= d * (ts / d) ->
  Truncate ts d = d * (ts / d).
Proof.
  intros Hts Hd Hpos Hmin. rewrite (Truncate_wrap ts d Hts Hd Hpos).
  apply wrap_small.
  pose proof (Z.div_mod ts d ltac:(lia)).
  pose proof (Z.mod_pos_bound ts d Hpos). bounds. lia.
Qed.

Lemma Truncate_nonpos (ts : TS) (d : time.Duration) :
  d <= 0 -> Truncate ts d = ts.
Proof.
  intros Hd. unfold Truncate. destruct (Z.leb_spec d 0); [reflexivity | lia].
Qed.

(** ** [time.Truncate] *)

Lemma normalize_S (fuel : nat) (d1 : Z) :
  time.normalize (S fuel) d1
  = if Z.shiftr d1 63 =? 1 then d1
    else time.normalize fuel (Z.shiftl d1 1 mod 2 ^ 64).
Proof. reflexivity. Qed.

Lemma remLoop_O (u dd d : Z) :
  time.remLoop O u dd d = if dd <=? u then u - dd else u.
Proof. reflexivity. Qed.

Lemma remLoop_S (fuel : nat) (u dd d : Z) :
  time.remLoop (S fuel) u dd d
  = if dd =? d then if dd <=? u then u - dd else u
    else time.remLoop fuel (if dd <=? u then u - dd else u) (Z.shiftr dd 1) d.
Proof. reflexivity. Qed.

(** Within 63 doublings the top bit of a positive 63-bit divisor is set. *)
Lemma normalize_spec (n fuel : nat) (d1 : Z) :
  (n <= fuel)%nat -> 0 < d1 -> Z.log2 d1 = 63 - Z.of_nat n ->
  exists k, 0 <= k <= Z.of_nat n
            /\ time.normalize fuel d1 = d1 * 2 ^ k
            /\ 2 ^ 63 <= time.normalize fuel d1 < 2 ^ 64.
Proof.
  revert fuel d1. induction n as [|n IH]; intros fuel d1 Hf Hpos Hlog.
  - destruct (Z.log2_spec d1 Hpos) as [Hlo Hhi].
    rewrite Hlog in Hlo, Hhi. simpl in Hlo, Hhi.
    change (Z.succ 63) with 64 in Hhi.
    assert (Hsh : Z.shiftr d1 63 = 1).
    { rewrite Z.shiftr_div_pow2 by lia. symmetry.
      apply (Z.div_unique d1 (2 ^ 63) 1 (d1 - 2 ^ 63)); bounds; lia. }
    exists 0. split; [lia|].
    assert (Hn : time.normalize fuel d1 = d1).
    { destruct fuel; [reflexivity|]. rewrite normalize_S, Hsh. reflexivity. }
    rewrite Hn. split; [lia | lia].
  - destruct fuel as [|fuel]; [lia|].
    destruct (Z.log2_spec d1 Hpos) as [Hlo Hhi].
    assert (Hlt : d1 < 2 ^ 63).
    { eapply Z.lt_le_trans; [exact Hhi|].
      apply Z.pow_le_mono_r; lia. }
    assert (Hsh : Z.shiftr d1 63 = 0).
    { rewrite Z.shiftr_div_pow2 by lia. apply Z.div_small. lia. }
    rewrite normalize_S, Hsh. change (0 =? 1) with false. cbv iota.
    assert (Hdbl : Z.shiftl d1 1 mod 2 ^ 64 = 2 * d1).
    { rewrite Z.shiftl_mul_pow2 by lia. change (2 ^ 1) with 2.
      rewrite Z.mod_small; bounds; lia. }
    rewrite Hdbl.
    destruct (IH fuel (2 * d1) ltac:(lia) ltac:(lia)) as (k & Hk & Heq & Hr).
    { rewrite Z.log2_double by lia. lia. }
    exists (k + 1). split; [lia|]. split; [|exact Hr].
    rewrite Heq, Z.pow_add_r by lia. change (2 ^ 1) with 2. lia.
Qed.

(** Started from [d * 2^i] with [u] below twice that, the loop leaves
    the remainder of [u] by [d] after [i] halvings. *)
Lemma remLoop_spec (i fuel : nat) (u d : Z) :
  (i <= fuel)%nat -> 0 < d -> 0 <= u < 2 * (d * 2 ^ Z.of_nat i) ->
  time.remLoop fuel u (d * 2 ^ Z.of_nat i) d = u mod d.
Proof.
  revert fuel u. induction i as [|i IH]; intros fuel u Hf Hpos Hu.
  - change (2 ^ Z.of_nat 0) with 1 in *. rewrite Z.mul_1_r in *.
    assert (Hstep : (if d <=? u then u - d else u) = u mod d).
    { destruct (Z.leb_spec d u).
      - apply (Z.mod_unique u d 1); lia.
      - symmetry. apply Z.mod_small. lia. }
    destruct fuel; [rewrite remLoop_O; exact Hstep|].
    rewrite remLoop_S, Z.eqb_refl. exact Hstep.
  - destruct fuel as [|fuel]; [lia|].
    assert (Hp : 0 < 2 ^ Z.of_nat i) by (apply Z.pow_pos_nonneg; lia).
    assert (Hs : 2 ^ Z.of_nat (S i) = 2 * 2 ^ Z.of_nat i).
    { rewrite Nat2Z.inj_succ, Z.pow_succ_r by lia. reflexivity. }
    rewrite Hs in *. rewrite remLoop_S.
    destruct (Z.eqb_spec (d * (2 * 2 ^ Z.of_nat i)) d) as [He | _]; [nia|].
    assert (Hhalf : Z.shiftr (d * (2 * 2 ^ Z.of_nat i)) 1 = d * 2 ^ Z.of_nat i).
    { rewrite Z.shiftr_div_pow2 by lia. change (2 ^ 1) with 2.
      replace (d * (2 * 2 ^ Z.of_nat i)) with (d * 2 ^ Z.of_nat i * 2) by lia.
      apply Z.div_mul. lia. }
    rewrite Hhalf.
    destruct (Z.leb_spec (d * (2 * 2 ^ Z.of_nat i)) u).
    + rewrite IH by (try lia; nia).
      replace (u - d * (2 * 2 ^ Z.of_nat i))
        with (u + (- (2 * 2 ^ Z.of_nat i)) * d) by lia.
      apply Z.mod_add. lia.
    + apply IH; try lia; nia.
Qed.

Lemma rem128_spec (u d : Z) :
  0 < d -> Int64.in_range d -> 0 <= u < 2 ^ 128 ->
  time.rem128 u d = u mod d.
Proof.
  intros Hpos Hd Hu. unfold time.rem128.
  assert (Hlog : 0 <= Z.log2 d < 63).
  { split; [apply Z.log2_nonneg|]. apply Z.log2_lt_pow2; bounds; lia. }
  destruct (normalize_spec (Z.to_nat (63 - Z.log2 d)) 64 d
              ltac:(lia) Hpos ltac:(lia)) as (k & Hk & Heq & Hr).
  rewrite Heq in *.
  replace (d * 2 ^ k * 2 ^ 64) with (d * 2 ^ Z.of_nat (Z.to_nat (k + 64))).
  2:{ rewrite Z2Nat.id, Z.pow_add_r by lia. lia. }
  apply remLoop_spec; [lia | exact Hpos |].
  rewrite Z2Nat.id, Z.pow_add_r by lia.
  change (2 ^ 128) with (2 ^ 63 * 2 * 2 ^ 64) in Hu.
  assert (0 < 2 ^ 64) by (bounds; lia). nia.
Qed.

(** On a time at or after the zero time, each of the three cases of [div]
    yields the remainder of the nanosecond count. *)
Lemma div_general (s ns d : Z) :
  0 < d -> Int64.in_range d -> Int64.in_range s -> 0 <= s ->
  0 <= ns < 1000000000 ->
  time.rem128 (s mod 2 ^ 64 * 1000000000 + ns) d
  = (s * 1000000000 + ns) mod d.
Proof.
  intros Hpos Hd Hs Hs0 Hns.
  rewrite (Z.mod_small s) by (bounds; lia).
  apply rem128_spec; [exact Hpos | exact Hd |].
  change (2 ^ 128) with 340282366920938463463374607431768211456.
  bounds. lia.
Qed.

Lemma div_mod (t : time.Time) (d : time.Duration) :
  time.wf t -> 0 <= time.sec t -> Int64.in_range d -> 0 < d ->
  time.div t d = nanos t mod d.
Proof.
  intros Ht Hs Hd Hpos. unfold time.div, nanos.
  destruct (Z.ltb_spec (time.sec t) 0) as [|_]; [lia|]. cbn [andb negb].
  change time.Second with 1000000000.
  assert (Hn : 0 <= time.nsec t < 1000000000) by (bounds; lia).
  destruct (Z.ltb_spec d 1000000000) as [Hlt | Hge]; simpl;
    [destruct (Z.eqb_spec (Z.rem 1000000000 (d + d)) 0) as [Hdiv | Hnd]|].
  - (* 2d divides one second *)
    pose proof (Z.quot_rem 1000000000 (d + d) ltac:(lia)) as Hqr.
    rewrite Hdiv in Hqr.
    rewrite Z.rem_mod_nonneg by lia.
    replace (time.sec t * 1000000000 + time.nsec t)
      with (time.nsec t + (time.sec t * (2 * Z.quot 1000000000 (d + d))) * d)
      by nia.
    symmetry. apply Z.mod_add. lia.
  - destruct (Z.eqb_spec (Z.rem d 1000000000) 0) as [Hsec | Hns].
    + exfalso. pose proof (Z.rem_bound_pos_pos d 1000000000 ltac:(lia) ltac:(lia)).
      pose proof (Z.quot_rem d 1000000000 ltac:(lia)).
      destruct (quot_rem_sign d 1000000000 ltac:(lia)) as (_ & Hc). nia.
    + apply div_general; try assumption; bounds; lia.
  - destruct (Z.eqb_spec (Z.rem d 1000000000) 0) as [Hsec | Hns].
    + (* d is a whole number of seconds *)
      pose proof (Z.quot_rem d 1000000000 ltac:(lia)) as Hqr.
      rewrite Hsec in Hqr.
      set (d1 := Z.quot d 1000000000) in *.
      assert (Hd1 : 0 < d1) by lia.
      rewrite Z.rem_mod_nonneg by lia.
      pose proof (Z.mod_pos_bound (time.sec t) d1 Hd1) as Hm.
      pose proof (Z.div_mod (time.sec t) d1 ltac:(lia)) as Hdm.
      unfold Int64.add, Int64.mul.
      rewrite (wrap_small (time.sec t mod d1 * 1000000000)) by (bounds; nia).
      rewrite wrap_small by (bounds; nia).
      apply (Z.mod_unique _ _ (time.sec t / d1)); [left; nia | nia].
    + apply div_general; try assumption; bounds; lia.
Qed.

(** [time.Truncate] by a positive duration subtracts the remainder of
    the nanosecond count. *)
Lemma time_Truncate_nanos (t : time.Time) (d : time.Duration) :
  time.wf t -> 0 <= time.sec t <= 2 ^ 62 -> Int64.in_range d -> 0 < d ->
  time.wf (time.Truncate t d)
  /\ nanos (time.Truncate t d) = nanos t - nanos t mod d
  /\ time.loc (time.Truncate t d) = time.loc t.
Proof.
  intros Ht Hs Hd Hpos. unfold time.Truncate.
  destruct (Z.leb_spec d 0); [lia|].
  rewrite (div_mod t d Ht ltac:(lia) Hd Hpos).
  pose proof (Z.mod_pos_bound (nanos t) d Hpos) as Hm.
  unfold Int64.neg. rewrite wrap_small by (bounds; lia).
  destruct (Add_nanos t (- (nanos t mod d)) Ht ltac:(bounds; lia)
              ltac:(change (2 ^ 62) with 4611686018427387904 in *; lia))
    as (Hw & Hn & Hl).
  repeat split; try apply Hw; [lia | assumption].
Qed.

(** * The claims *)

(** C3 (zero special case).  [Timestamp] of a zero [time.Time] is the
    number 0; [Time] of the time stamp 0 is the zero [time.Time], which is
    not the epoch; and [IsZero] is true exactly for the number 0. *)
Theorem zero_special_case (t : time.Time) (ts : TS) :
  time.IsZero t = true ->
  Timestamp t = 0
  /\ Time 0 = time.zeroTime
  /\ time.Equal (Time 0) tZero = false
  /\ (IsZero ts = true <-> ts = 0).
Proof.
  intros Hz. unfold Timestamp. rewrite Hz.
  repeat split; try reflexivity; unfold IsZero; apply Z.eqb_eq.
Qed.

Lemma zero_special_case_witness :
  time.IsZero time.zeroTime = true
  /\ Timestamp time.zeroTime = 0
  /\ Time 0 = time.zeroTime
  /\ time.Equal (Time 0) tZero = false
  /\ (IsZero 7 = true <-> 7 = 0).
Proof.
  split; [reflexivity | apply (zero_special_case time.zeroTime 7); reflexivity].
Defined.

(** C10 (sentinel collapse).  A time stamp strictly between 0 and [d] is
    not zero, yet it truncates to the number 0, so the truncated value
    converts to the zero [time.Time] and not to an instant near [ts]. *)
Theorem truncate_sentinel_collapse (ts : TS) (d : time.Duration) :
  Int64.in_range d -> 0 < ts < d ->
  IsZero ts = false
  /\ time.IsZero (Time ts) = false
  /\ Truncate ts d = 0
  /\ IsZero (Truncate ts d) = true
  /\ Time (Truncate ts d) = time.zeroTime.
Proof.
  intros Hd Hts.
  assert (Hr : Int64.in_range ts) by (bounds; lia).
  assert (Ht : Truncate ts d = 0).
  { rewrite (Truncate_wrap ts d Hr Hd ltac:(lia)).
    rewrite Z.div_small, Z.mul_0_r by lia. reflexivity. }
  destruct (Time_nanos ts Hr) as (Hw & Hn & _).
  rewrite Ht. repeat split; try reflexivity.
  - unfold IsZero. apply Z.eqb_neq. lia.
  - rewrite (IsZero_nanos _ Hw), Hn.
    destruct (Z.eqb_spec ts 0); [lia|]. apply Z.eqb_neq. bounds. lia.
Qed.

Lemma truncate_sentinel_collapse_witness :
  Int64.in_range 10 /\ 0 < 5 < 10
  /\ IsZero 5 = false
  /\ time.IsZero (Time 5) = false
  /\ Truncate 5 10 = 0
  /\ IsZero (Truncate 5 10) = true
  /\ Time (Truncate 5 10) = time.zeroTime.
Proof.
  assert (Hd : Int64.in_range 10) by (bounds; lia).
  assert (Hts : 0 < 5 < 10) by lia.
  split; [exact Hd|]. split; [exact Hts|].
  exact (truncate_sentinel_collapse 5 10 Hd Hts).
Defined.

(** C9 (additive inverse).  [a.Add(d).Sub(a)] is [d], and [a.Add(d)]
    differs from [a] when [d] is not zero.  Both hold for all 64-bit
    values, so in particular when the sum does not overflow. *)
Theorem add_sub_inverse (a : TS) (d : time.Duration) :
  Int64.in_range a -> Int64.in_range d ->
  Sub (Add a d) a = d /\ (d <> 0 -> Add a d <> a).
Proof.
  intros Ha Hd. unfold Sub, Add, Duration, Int64.sub, Int64.add.
  destruct (wrap_spec (a + d)) as (k & Hk & Hr).
  destruct (wrap_spec (Int64.wrap (a + d) - a)) as (k' & Hk' & Hr').
  bounds. split; lia.
Qed.

Lemma add_sub_inverse_witness :
  Int64.in_range MaxTS /\ Int64.in_range 1
  /\ Sub (Add MaxTS 1) MaxTS = 1 /\ (1 <> 0 -> Add MaxTS 1 <> MaxTS).
Proof.
  assert (Ha : Int64.in_range MaxTS) by (bounds; lia).
  assert (Hd : Int64.in_range 1) by (bounds; lia).
  split; [exact Ha|]. split; [exact Hd|].
  exact (add_sub_inverse MaxTS 1 Ha Hd).
Defined.

(** C7 (range predicate).  [OutOfRange t] is true exactly when [t] is not
    the zero time and the duration [t.Sub(tZero)] is at most [MinTS] or at
    least [MaxTS]; the same holds with the full-width offset in place of
    the duration.  The extremes themselves are out of range, their
    neighbours are not. *)
Theorem out_of_range_spec (t : time.Time) :
  time.wf t ->
  (OutOfRange t = true <->
     time.IsZero t = false
     /\ (time.Sub t tZero <= MinTS \/ MaxTS <= time.Sub t tZero))
  /\ (OutOfRange t = true <->
        time.IsZero t = false /\ (offset t <= MinTS \/ MaxTS <= offset t))
  /\ OutOfRange (time.Add tZero MaxTS) = true
  /\ OutOfRange (time.Add tZero (MaxTS - 1)) = false
  /\ OutOfRange (time.Add tZero MinTS) = true
  /\ OutOfRange (time.Add tZero (MinTS + 1)) = false.
Proof.
  intros Ht.
  assert (Hcode : OutOfRange t = true <->
                  time.IsZero t = false
                  /\ (time.Sub t tZero <= MinTS \/ MaxTS <= time.Sub t tZero)).
  { unfold OutOfRange. rewrite andb_true_iff, orb_true_iff, negb_true_iff.
    rewrite !Z.leb_le. reflexivity. }
  split; [exact Hcode|]. split; [|repeat split; reflexivity].
  rewrite Hcode, (Sub_tZero t Ht). unfold clamp. bounds.
  split; intros [Hz Hd]; (split; [exact Hz | lia]).
Qed.

Lemma out_of_range_spec_witness :
  time.wf (time.mkTime 0 1000 None)
  /\ (OutOfRange (time.mkTime 0 1000 None) = true <->
        time.IsZero (time.mkTime 0 1000 None) = false
        /\ (offset (time.mkTime 0 1000 None) <= MinTS
            \/ MaxTS <= offset (time.mkTime 0 1000 None))).
Proof.
  assert (Hwf : time.wf (time.mkTime 0 1000 None))
    by (unfold time.wf; simpl; bounds; lia).
  split; [exact Hwf|].
  exact (proj1 (proj2 (out_of_range_spec (time.mkTime 0 1000 None) Hwf))).
Defined.

(** C2 (totality).  [AddDate] hands a nil location to [time.Date], which
    panics on it: for every receiver and every argument triple the call
    fails and no time stamp is returned. *)
Theorem AddDate_panics
  (civil : Z -> Z -> Z -> Z -> Z -> Z -> Z -> time.Location -> time.Time)
  (ts : TS) (years months days : Z) :
  AddDate civil ts years months days = None.
Proof. reflexivity. Qed.

(** With a location in hand [time.Date] does return: the nil argument is
    what makes [AddDate] fail. *)
Lemma Date_located
  (civil : Z -> Z -> Z -> Z -> Z -> Z -> Z -> time.Location -> time.Time)
  (years months days : Z) (l : time.Location) :
  time.Date civil years months days 0 0 0 0 (Some l)
  = Some (civil years months days 0 0 0 0 l).
Proof. reflexivity. Qed.

(** C6, as stated, fails: the offset of [pastMax] is 2^63, which wraps to
    [MinTS], while [Timestamp] returns [MaxTS]. *)
Lemma Timestamp_wrap_counterexample :
  time.wf pastMax
  /\ time.IsZero pastMax = false
  /\ offset pastMax = 2 ^ 63
  /\ ~ Int64.in_range (offset pastMax)
  /\ Timestamp pastMax = MaxTS
  /\ Timestamp pastMax <> Int64.wrap (offset pastMax).
Proof.
  repeat split; try reflexivity; try (vm_compute; discriminate).
  unfold Int64.in_range. vm_compute. intros [_ H]. apply H. reflexivity.
Qed.

(** C6 (out-of-range conversion), amended.  For a nonzero [t] whose
    offset from the epoch does not fit 64 bits, [Timestamp t] is the
    nearest extreme: [MinTS] before the epoch, [MaxTS] after it. *)
Theorem Timestamp_saturates (t : time.Time) :
  time.wf t -> time.IsZero t = false -> ~ Int64.in_range (offset t) ->
  Timestamp t = (if offset t <? 0 then MinTS else MaxTS).
Proof.
  intros Ht Hz Hout. unfold Timestamp. rewrite Hz, (Sub_tZero t Ht).
  unfold clamp. bounds. destruct (Z.ltb_spec (offset t) 0); lia.
Qed.

Lemma Timestamp_saturates_witness :
  time.wf pastMax /\ time.IsZero pastMax = false
  /\ ~ Int64.in_range (offset pastMax)
  /\ Timestamp pastMax = (if offset pastMax <? 0 then MinTS else MaxTS).
Proof.
  assert (Hw : time.wf pastMax) by (unfold time.wf; simpl; bounds; lia).
  assert (Hz : time.IsZero pastMax = false) by reflexivity.
  assert (Ho : ~ Int64.in_range (offset pastMax)).
  { unfold Int64.in_range. vm_compute. intros [_ H]. apply H. reflexivity. }
  split; [exact Hw|]. split; [exact Hz|]. split; [exact Ho|].
  exact (Timestamp_saturates pastMax Hw Hz Ho).
Defined.

(** C1, as stated, fails at the epoch: [time.Unix(0, 0)] is not the zero
    time and is in range, its time stamp is 0, and 0 converts back to the
    zero [time.Time], 1969 years earlier. *)
Lemma round_trip_epoch_counterexample :
  time.wf (time.Unix 0 0)
  /\ time.IsZero (time.Unix 0 0) = false
  /\ OutOfRange (time.Unix 0 0) = false
  /\ Timestamp (time.Unix 0 0) = 0
  /\ Time (Timestamp (time.Unix 0 0)) = time.zeroTime
  /\ Time (Timestamp (time.Unix 0 0)) <> time.UTC (time.Unix 0 0)
  /\ time.Equal (Time (Timestamp (time.Unix 0 0))) (time.Unix 0 0) = false.
Proof.
  repeat split; try reflexivity; vm_compute; discriminate.
Qed.

(** C1 (round trip), amended.  For every [t] that is the zero time, or
    that is in range and is not the epoch instant, [Timestamp(t).Time()]
    is [t] moved to UTC, hence the same instant as [t]. *)
Theorem round_trip (t : time.Time) :
  time.wf t ->
  time.IsZero t = true
  \/ (OutOfRange t = false /\ time.Equal t tZero = false) ->
  Time (Timestamp t) = time.UTC t
  /\ time.Equal (Time (Timestamp t)) t = true.
Proof.
  intros Ht Hcase.
  assert (Hu : time.wf (time.UTC t)) by exact Ht.
  assert (Hsame : Time (Timestamp t) = time.UTC t ->
                  Time (Timestamp t) = time.UTC t
                  /\ time.Equal (Time (Timestamp t)) t = true).
  { intros ->. split; [reflexivity|].
    unfold time.Equal, time.UTC. simpl. rewrite !Z.eqb_refl. reflexivity. }
  apply Hsame.
  destruct (time.IsZero t) eqn:Hz.
  - unfold Timestamp. rewrite Hz, Time_0.
    unfold time.IsZero in Hz. apply andb_true_iff in Hz.
    destruct Hz as [Hs Hn]. apply Z.eqb_eq in Hs, Hn.
    unfold time.UTC, time.zeroTime. rewrite Hs, Hn. reflexivity.
  - destruct Hcase as [Habs | [Hin Hne]]; [discriminate|].
    rewrite (OutOfRange_nonzero t Hz) in Hin.
    apply orb_false_iff in Hin. destruct Hin as [Hlo Hhi].
    apply Z.leb_gt in Hlo, Hhi.
    rewrite (Sub_tZero t Ht) in Hlo, Hhi.
    rewrite (Equal_nanos t tZero Ht tZero_wf) in Hne. apply Z.eqb_neq in Hne.
    rewrite nanos_tZero in Hne.
    unfold Timestamp. rewrite Hz, (Sub_tZero t Ht).
    assert (Hc : clamp (offset t) = offset t)
      by (unfold clamp in *; bounds; lia).
    rewrite Hc in *.
    assert (Hr : Int64.in_range (offset t)) by (bounds; lia).
    destruct (Time_nanos (offset t) Hr) as (Hw & Hn & Hl).
    apply nanos_inj; [exact Hw | exact Hu | | exact Hl].
    rewrite Hn. change (nanos (time.UTC t)) with (nanos t).
    destruct (Z.eqb_spec (offset t) 0); unfold offset in *; lia.
Qed.

Lemma round_trip_witness :
  time.wf (time.Unix 1600000000 5)
  /\ (time.IsZero (time.Unix 1600000000 5) = true
      \/ (OutOfRange (time.Unix 1600000000 5) = false
          /\ time.Equal (time.Unix 1600000000 5) tZero = false))
  /\ Time (Timestamp (time.Unix 1600000000 5))
     = time.UTC (time.Unix 1600000000 5)
  /\ time.Equal (Time (Timestamp (time.Unix 1600000000 5)))
                (time.Unix 1600000000 5) = true.
Proof.
  assert (Hw : time.wf (time.Unix 1600000000 5))
    by (vm_compute; repeat split; first [reflexivity | discriminate]).
  assert (Hc : time.IsZero (time.Unix 1600000000 5) = true
               \/ (OutOfRange (time.Unix 1600000000 5) = false
                   /\ time.Equal (time.Unix 1600000000 5) tZero = false))
    by (right; split; reflexivity).
  split; [exact Hw|]. split; [exact Hc|].
  exact (round_trip (time.Unix 1600000000 5) Hw Hc).
Defined.

(** C5, as stated, fails when the zero time stamp meets a negative one:
    0 is after -1 as a number, but [Time] sends 0 to the zero time, which
    is before the instant of -1. *)
Lemma ordering_zero_counterexample :
  After 0 (-1) = true
  /\ time.After (Time 0) (Time (-1)) = false
  /\ time.Before (Time 0) (Time (-1)) = true.
Proof. repeat split; reflexivity. Qed.

(** C5 (ordering consistency), amended.  Exactly one of [After],
    [Before], [Equal] holds for any two time stamps; and unless one of
    them is 0 and the other negative, each agrees with the relation of
    the same name between [a.Time()] and [b.Time()]. *)
Theorem ordering_consistency (a b : TS) :
  Int64.in_range a -> Int64.in_range b ->
  ((After a b = true /\ Before a b = false /\ Equal a b = false)
   \/ (After a b = false /\ Before a b = true /\ Equal a b = false)
   \/ (After a b = false /\ Before a b = false /\ Equal a b = true))
  /\ (~ (a = 0 /\ b < 0) -> ~ (b = 0 /\ a < 0) ->
      After a b = time.After (Time a) (Time b)
      /\ Before a b = time.Before (Time a) (Time b)
      /\ Equal a b = time.Equal (Time a) (Time b)).
Proof.
  intros Ha Hb. unfold After, Before, Equal. split.
  - destruct (Z.ltb_spec b a), (Z.ltb_spec a b), (Z.eqb_spec a b);
      try lia; tauto.
  - intros Hab Hba.
    destruct (Time_nanos a Ha) as (Hwa & Hna & _).
    destruct (Time_nanos b Hb) as (Hwb & Hnb & _).
    rewrite (After_nanos _ _ Hwa Hwb), (Before_nanos _ _ Hwa Hwb),
      (Equal_nanos _ _ Hwa Hwb), Hna, Hnb.
    bounds.
    destruct (Z.eqb_spec a 0), (Z.eqb_spec b 0);
      repeat split;
      repeat match goal with
             | |- context [?x <? ?y] => destruct (Z.ltb_spec x y)
             | |- context [?x =? ?y] => destruct (Z.eqb_spec x y)
             end; try reflexivity; lia.
Qed.

Lemma ordering_consistency_witness :
  Int64.in_range 0 /\ Int64.in_range 7
  /\ After 0 7 = time.After (Time 0) (Time 7)
  /\ Before 0 7 = time.Before (Time 0) (Time 7)
  /\ Equal 0 7 = time.Equal (Time 0) (Time 7).
Proof.
  assert (Ha : Int64.in_range 0) by (bounds; lia).
  assert (Hb : Int64.in_range 7) by (bounds; lia).
  split; [exact Ha|]. split; [exact Hb|].
  apply (proj2 (ordering_consistency 0 7 Ha Hb)); lia.
Defined.

(** C4, as stated, fails near [MinTS]: the floor multiple of 3 below
    [MinTS] is not representable, the product wraps, and the result is
    [MaxTS], which is above [ts] and is not a multiple of 3. *)
Lemma truncate_floor_counterexample :
  Int64.in_range MinTS /\ 0 < 3
  /\ Truncate MinTS 3 = MaxTS
  /\ ~ (Truncate MinTS 3 <= MinTS)
  /\ (Truncate MinTS 3) mod 3 <> 0.
Proof.
  split; [bounds; lia|]. split; [lia|]. split; [reflexivity|].
  change (Truncate MinTS 3) with MaxTS. bounds. split; [lia|].
  vm_compute. discriminate.
Qed.

(** C4 (truncate floor law), amended.  For [d > 0], whenever the floor
    multiple [d * floor(ts / d)] is not below [MinTS], [ts.Truncate(d)] is
    that multiple: a multiple of [d], at most [ts], and the greatest such
    multiple, also for negative [ts].  For [d <= 0], [ts.Truncate(d)] is
    [ts]. *)
Theorem truncate_floor_law (ts : TS) (d : time.Duration) :
  Int64.in_range ts -> Int64.in_range d ->
  (0 < d -> MinTS <= d * (ts / d) ->
   Truncate ts d = d * (ts / d)
   /\ Truncate ts d <= ts
   /\ (forall k, k * d <= ts -> k * d <= Truncate ts d))
  /\ (d <= 0 -> Truncate ts d = ts).
Proof.
  intros Hts Hd. split; [|apply Truncate_nonpos].
  intros Hpos Hmin. rewrite (Truncate_floor ts d Hts Hd Hpos Hmin).
  pose proof (Z.div_mod ts d ltac:(lia)) as Hdm.
  pose proof (Z.mod_pos_bound ts d Hpos) as Hm.
  repeat split; [lia|]. intros k Hk.
  assert (k <= ts / d) by (apply Z.div_le_lower_bound; lia). nia.
Qed.

Lemma truncate_floor_law_witness :
  Int64.in_range (-7) /\ Int64.in_range 3 /\ 0 < 3 /\ MinTS <= 3 * (-7 / 3)
  /\ Truncate (-7) 3 = 3 * (-7 / 3)
  /\ Truncate (-7) 3 <= -7
  /\ (forall k, k * 3 <= -7 -> k * 3 <= Truncate (-7) 3).
Proof.
  assert (Hts : Int64.in_range (-7)) by (bounds; lia).
  assert (Hd : Int64.in_range 3) by (bounds; lia).
  assert (Hpos : 0 < 3) by lia.
  assert (Hmin : MinTS <= 3 * (-7 / 3)) by (vm_compute; discriminate).
  split; [exact Hts|]. split; [exact Hd|]. split; [exact Hpos|].
  split; [exact Hmin|].
  exact (proj1 (truncate_floor_law (-7) 3 Hts Hd) Hpos Hmin).
Defined.


Lemma truncate_week_mismatch :
  time.Equal (Time (Truncate (8 * 24 * time.Hour) (7 * 24 * time.Hour)))
             (time.Truncate (Time (8 * 24 * time.Hour)) (7 * 24 * time.Hour))
  = false.
Proof. reflexivity. Qed.



(** ** Where the side conditions bite *)

(** When the floor multiple is below [MinTS] the product wraps and the
    result lands above [ts]. *)
Lemma Truncate_overflow (ts : TS) (d : time.Duration) :
  Int64.in_range ts -> Int64.in_range d -> 0 < d ->
  d * (ts / d) < MinTS -> ts < Truncate ts d.
Proof.
  intros Hts Hd Hpos Hlow. rewrite (Truncate_wrap ts d Hts Hd Hpos).
  pose proof (Z.div_mod ts d ltac:(lia)) as Hdm.
  pose proof (Z.mod_pos_bound ts d Hpos) as Hm.
  destruct (wrap_spec (d * (ts / d))) as (k & -> & Hr). bounds. lia.
Qed.

(** The zero time stamp is after every negative one as a number and
    before it as an instant. *)
Lemma zero_after_negative (b : TS) :
  Int64.in_range b -> b < 0 ->
  After 0 b = true /\ time.Before (Time 0) (Time b) = true.
Proof.
  intros Hb Hneg. split; [apply Z.ltb_lt; exact Hneg|].
  destruct (Time_nanos b Hb) as (Hw & Hn & _).
  rewrite Before_nanos; [|unfold time.wf; simpl; bounds; lia | exact Hw].
  rewrite Hn. destruct (Z.eqb_spec b 0); [lia|].
  apply Z.ltb_lt. change (nanos (Time 0)) with 0. bounds. lia.
Qed.

(** The durations that the tests truncate by all divide the distance
    from the zero time to the epoch. *)
Lemma test_durations_divide :
  epochNs mod time.Hour = 0 /\ epochNs mod time.Minute = 0
  /\ epochNs mod time.Second = 0 /\ epochNs mod time.Millisecond = 0
  /\ epochNs mod time.Microsecond = 0.
Proof. repeat split; reflexivity. Qed.

(** The general case of [div] on concrete input: 3 ns divides the
    distance to the epoch, 7 ns does not. *)
Lemma truncate_general_case :
  time.div (Time 10) 3 = 1
  /\ Time (Truncate 10 3) = time.Truncate (Time 10) 3
  /\ time.div (Time 14) 7 = 3
  /\ Truncate 14 7 = 14
  /\ time.Truncate (Time 14) 7 = Time 11.
Proof. repeat split; vm_compute; reflexivity. Qed.

(** * Further properties of the package *)

(** ** Shared facts *)

Lemma Time_sec_bound (ts : TS) :
  Int64.in_range ts -> 0 <= time.sec (Time ts) <= 2 ^ 62.
Proof.
  intros Hts. destruct (Time_nanos ts Hts) as (Hw & Hn & _).
  change (2 ^ 62) with 4611686018427387904.
  unfold nanos in Hn. destruct (Z.eqb_spec ts 0); bounds; lia.
Qed.

Lemma Time_nonzero_nanos (ts : TS) :
  Int64.in_range ts -> ts <> 0 -> nanos (Time ts) = epochNs + ts.
Proof.
  intros Hts Hne. destruct (Time_nanos ts Hts) as (_ & Hn & _).
  rewrite Hn. destruct (Z.eqb_spec ts 0); [contradiction | reflexivity].
Qed.

(** [Sub] between two times is the full-width difference cut to 64 bits,
    as long as the seconds of the subtrahend are far from the ends of
    [int64]. *)
Lemma Sub_nanos (t u : time.Time) :
  time.wf t -> time.wf u -> - 2 ^ 62 <= time.sec u <= 2 ^ 62 ->
  time.Sub t u = clamp (nanos t - nanos u).
Proof.
  intros Ht Hu Hs. unfold time.Sub.
  assert (Hraw : Int64.add
                   (Int64.mul (Int64.sub (time.sec t) (time.sec u)) time.Second)
                   (time.nsec t - time.nsec u)
                 = Int64.wrap (nanos t - nanos u)).
  { unfold Int64.add, Int64.mul, Int64.sub, nanos.
    change time.Second with 1000000000.
    destruct (wrap_spec (time.sec t - time.sec u)) as (k1 & -> & _).
    destruct (wrap_spec ((time.sec t - time.sec u + k1 * 18446744073709551616)
                         * 1000000000)) as (k2 & -> & _).
    apply wrap_congr. exists (k1 * 1000000000 + k2). lia. }
  rewrite Hraw.
  pose proof (wrap_in_range (nanos t - nanos u)) as Hw.
  destruct (Add_nanos u _ Hu Hw Hs) as (Hwf & Hn & _).
  rewrite (Equal_nanos _ _ Hwf Ht), Hn, (Before_nanos _ _ Ht Hu).
  destruct (wrap_spec (nanos t - nanos u)) as (k & Hk & _).
  unfold clamp. bounds.
  destruct (Z.eqb_spec (nanos u + Int64.wrap (nanos t - nanos u)) (nanos t)).
  - lia.
  - destruct (Z.ltb_spec (nanos t) (nanos u)); lia.
Qed.

(** A time that is not zero and not out of range lies strictly inside
    the 64-bit window around the epoch, and [Timestamp] is its offset. *)
Lemma in_range_offset (t : time.Time) :
  time.wf t -> time.IsZero t = false -> OutOfRange t = false ->
  MinTS < offset t < MaxTS /\ Timestamp t = offset t.
Proof.
  intros Ht Hz Hin. rewrite (OutOfRange_nonzero t Hz) in Hin.
  apply orb_false_iff in Hin. destruct Hin as [Hlo Hhi].
  apply Z.leb_gt in Hlo, Hhi. rewrite (Sub_tZero t Ht) in Hlo, Hhi.
  unfold Timestamp. rewrite Hz, (Sub_tZero t Ht).
  unfold clamp in *. bounds. lia.
Qed.

(** [time.Unix] normalises the nanoseconds into one second and counts
    from the epoch. *)
Lemma time_Unix_nanos (s ns : Z) :
  Int64.in_range s -> Int64.in_range ns -> - 2 ^ 62 <= s <= 2 ^ 62 ->
  time.wf (time.Unix s ns)
  /\ nanos (time.Unix s ns) = epochNs + s * 1000000000 + ns.
Proof.
  intros Hs Hns Hb. change (2 ^ 62) with 4611686018427387904 in Hb.
  destruct (quot_rem_sign ns 1000000000 ltac:(lia)) as (Hqr & Hsg).
  pose proof (quot_in_range ns 1000000000 Hns ltac:(lia)) as Hq.
  assert (Hqb : -9223372037 <= Z.quot ns 1000000000 <= 9223372037)
    by (bounds; lia).
  assert (HU : time.unixToInternal = 62135596800) by reflexivity.
  unfold time.Unix.
  destruct ((ns <? 0) || (1000000000 <=? ns)) eqn:Hout.
  - unfold Int64.quot, Int64.add, Int64.sub, Int64.mul.
    rewrite (wrap_small _ Hq).
    rewrite (wrap_small (s + Z.quot ns 1000000000)) by (bounds; lia).
    rewrite (wrap_small (Z.quot ns 1000000000 * 1000000000)) by (bounds; lia).
    rewrite (wrap_small (ns - Z.quot ns 1000000000 * 1000000000))
      by (bounds; lia).
    rewrite (wrap_small (s + Z.quot ns 1000000000 - 1)) by (bounds; lia).
    destruct (Z.ltb_spec (ns - Z.quot ns 1000000000 * 1000000000) 0).
    + rewrite (wrap_small (ns - Z.quot ns 1000000000 * 1000000000 + 1000000000))
        by (bounds; lia).
      unfold time.unixTime, Int64.add. rewrite HU.
      rewrite wrap_small by (bounds; lia).
      unfold time.wf, nanos. cbn [time.sec time.nsec]. bounds. lia.
    + unfold time.unixTime, Int64.add. rewrite HU.
      rewrite wrap_small by (bounds; lia).
      unfold time.wf, nanos. cbn [time.sec time.nsec]. bounds. lia.
  - apply orb_false_iff in Hout. destruct Hout as [H1 H2].
    apply Z.ltb_ge in H1. apply Z.leb_gt in H2.
    unfold time.unixTime, Int64.add. rewrite HU.
    rewrite wrap_small by (bounds; lia).
    unfold time.wf, nanos. cbn [time.sec time.nsec]. bounds. lia.
Qed.

(** ** Conversions *)

(** X1.  Converting a time stamp to a [time.Time] and back gives the
    time stamp again, for every 64-bit value, the extremes and 0
    included. *)
Theorem Timestamp_Time (ts : TS) :
  Int64.in_range ts -> Timestamp (Time ts) = ts.
Proof.
  intros Hts. destruct (Time_nanos ts Hts) as (Hw & Hn & _).
  unfold Timestamp. rewrite (IsZero_nanos _ Hw), (Sub_tZero _ Hw).
  unfold offset, clamp. rewrite Hn.
  destruct (Z.eqb_spec ts 0) as [-> | Hne]; [reflexivity|].
  destruct (Z.eqb_spec (epochNs + ts) 0); bounds; lia.
Qed.

Lemma Timestamp_Time_witness :
  Int64.in_range MinTS /\ Timestamp (Time MinTS) = MinTS.
Proof.
  assert (H : Int64.in_range MinTS) by (bounds; lia).
  split; [exact H | exact (Timestamp_Time MinTS H)].
Defined.

(** X2.  [ts.Time()] is a well-formed time in UTC, and it is the zero
    time exactly when [ts] is the zero time stamp. *)
Theorem Time_IsZero (ts : TS) :
  Int64.in_range ts ->
  time.wf (Time ts)
  /\ time.loc (Time ts) = None
  /\ time.IsZero (Time ts) = IsZero ts.
Proof.
  intros Hts. destruct (Time_nanos ts Hts) as (Hw & Hn & Hl).
  split; [exact Hw|]. split; [exact Hl|].
  rewrite (IsZero_nanos _ Hw), Hn. unfold IsZero.
  destruct (Z.eqb_spec ts 0); [reflexivity|].
  apply Z.eqb_neq. bounds. lia.
Qed.

Lemma Time_IsZero_witness :
  Int64.in_range (-1)
  /\ time.wf (Time (-1))
  /\ time.loc (Time (-1)) = None
  /\ time.IsZero (Time (-1)) = IsZero (-1).
Proof.
  assert (H : Int64.in_range (-1)) by (bounds; lia).
  split; [exact H | exact (Time_IsZero (-1) H)].
Defined.

(** X3.  The time of a time stamp is flagged by [OutOfRange] exactly
    for the two extreme time stamps. *)
Theorem OutOfRange_Time (ts : TS) :
  Int64.in_range ts ->
  (OutOfRange (Time ts) = true <-> ts = MinTS \/ ts = MaxTS).
Proof.
  intros Hts. destruct (Time_nanos ts Hts) as (Hw & Hn & _).
  unfold OutOfRange.
  rewrite andb_true_iff, orb_true_iff, negb_true_iff, !Z.leb_le.
  rewrite (IsZero_nanos _ Hw), (Sub_tZero _ Hw), Z.eqb_neq.
  unfold offset, clamp. rewrite Hn. bounds.
  destruct (Z.eqb_spec ts 0); lia.
Qed.

Lemma OutOfRange_Time_witness :
  Int64.in_range MaxTS
  /\ (OutOfRange (Time MaxTS) = true <-> MaxTS = MinTS \/ MaxTS = MaxTS).
Proof.
  assert (H : Int64.in_range MaxTS) by (bounds; lia).
  split; [exact H | exact (OutOfRange_Time MaxTS H)].
Defined.



Lemma Unix_clamp (sec nsec : Z) :
  Int64.in_range sec -> Int64.in_range nsec -> - 2 ^ 62 <= sec <= 2 ^ 62 ->
  Unix sec nsec
  = if sec * 1000000000 + nsec =? - epochNs then 0
    else clamp (sec * 1000000000 + nsec).
Proof.
  intros Hs Hns Hb.
  destruct (time_Unix_nanos sec nsec Hs Hns Hb) as (Hw & Hn).
  unfold Unix, Timestamp.
  rewrite (IsZero_nanos _ Hw), (Sub_tZero _ Hw). unfold offset. rewrite Hn.
  destruct (Z.eqb_spec (epochNs + sec * 1000000000 + nsec) 0);
    destruct (Z.eqb_spec (sec * 1000000000 + nsec) (- epochNs)); try lia.
  f_equal. lia.
Qed.

(** X5.  [Unix(sec, nsec)] is [sec * 1e9 + nsec] cut to the 64-bit
    range, for any [nsec], also negative or above one second; the one
    exception is the zero time, which gives 0. *)
Theorem Unix_value (sec nsec : Z) :
  Int64.in_range sec -> Int64.in_range nsec -> - 2 ^ 62 <= sec <= 2 ^ 62 ->
  Unix sec nsec
  = if sec * 1000000000 + nsec =? - epochNs then 0
    else clamp (sec * 1000000000 + nsec).
Proof. exact (Unix_clamp sec nsec). Qed.

Lemma Unix_value_witness :
  Int64.in_range 5 /\ Int64.in_range (-7000000001) /\ - 2 ^ 62 <= 5 <= 2 ^ 62
  /\ Unix 5 (-7000000001)
     = if 5 * 1000000000 + -7000000001 =? - epochNs then 0
       else clamp (5 * 1000000000 + -7000000001).
Proof.
  assert (Hs : Int64.in_range 5) by (bounds; lia).
  assert (Hns : Int64.in_range (-7000000001)) by (bounds; lia).
  assert (Hb : - 2 ^ 62 <= 5 <= 2 ^ 62) by (vm_compute; split; discriminate).
  split; [exact Hs|]. split; [exact Hns|]. split; [exact Hb|].
  exact (Unix_value 5 (-7000000001) Hs Hns Hb).
Defined.

(** ** Unix accessors *)

Lemma TS_Unix_floor (ts : TS) :
  Int64.in_range ts ->
  TS_Unix ts = if ts =? 0 then -62135596800 else ts / 1000000000.
Proof.
  intros Hts. destruct (Z.eqb_spec ts 0) as [-> | Hne]; [reflexivity|].
  destruct (Time_nanos ts Hts) as (Hw & _ & _).
  pose proof (Time_nonzero_nanos ts Hts Hne) as Hn.
  pose proof (Time_sec_bound ts Hts) as Hb.
  change (2 ^ 62) with 4611686018427387904 in Hb.
  unfold TS_Unix, time.Time_Unix, time.unixSec, Int64.add.
  change time.internalToUnix with (-62135596800).
  rewrite wrap_small by (bounds; lia).
  unfold nanos in Hn. bounds.
  apply (Z.div_unique ts 1000000000 _ (time.nsec (Time ts))); lia.
Qed.

(** X6.  [ts.Unix()] is the whole seconds of [ts], rounded toward
    negative infinity, for every time stamp but 0; the zero time stamp
    reads as the seconds of the zero time, -62135596800. *)
Theorem TS_Unix_value (ts : TS) :
  Int64.in_range ts ->
  TS_Unix ts = if ts =? 0 then -62135596800 else ts / 1000000000.
Proof. exact (TS_Unix_floor ts). Qed.

Lemma TS_Unix_value_witness :
  Int64.in_range (-1)
  /\ TS_Unix (-1) = if -1 =? 0 then -62135596800 else -1 / 1000000000.
Proof.
  assert (H : Int64.in_range (-1)) by (bounds; lia).
  split; [exact H | exact (TS_Unix_value (-1) H)].
Defined.

Lemma UnixNano_wrap (ts : TS) :
  Int64.in_range ts ->
  UnixNano ts = if ts =? 0 then -6795364578871345152 else ts.
Proof.
  intros Hts. destruct (Z.eqb_spec ts 0) as [-> | Hne]; [reflexivity|].
  pose proof (Time_nonzero_nanos ts Hts Hne) as Hn.
  unfold UnixNano, time.UnixNano, time.unixSec, Int64.add, Int64.mul.
  change time.internalToUnix with (-62135596800).
  destruct (wrap_spec (time.sec (Time ts) + -62135596800)) as (k1 & -> & _).
  destruct (wrap_spec ((time.sec (Time ts) + -62135596800
                        + k1 * 18446744073709551616) * 1000000000))
    as (k2 & -> & _).
  transitivity (Int64.wrap ts); [|exact (wrap_small ts Hts)].
  apply wrap_congr.
  exists (k1 * 1000000000 + k2). unfold nanos in Hn. bounds. lia.
Qed.

(** X7.  [ts.UnixNano()] is [ts] itself for every time stamp but 0; for
    the zero time stamp the nanoseconds of the zero time do not fit and
    the result is the wrapped value -6795364578871345152. *)
Theorem UnixNano_value (ts : TS) :
  Int64.in_range ts ->
  UnixNano ts = if ts =? 0 then -6795364578871345152 else ts.
Proof. exact (UnixNano_wrap ts). Qed.

Lemma UnixNano_value_witness :
  Int64.in_range MinTS
  /\ UnixNano MinTS = if MinTS =? 0 then -6795364578871345152 else MinTS.
Proof.
  assert (H : Int64.in_range MinTS) by (bounds; lia).
  split; [exact H | exact (UnixNano_value MinTS H)].
Defined.

(** X8.  A time stamp other than 0 is rebuilt from its accessors:
    [Unix(0, ts.UnixNano())] and [Unix(ts.Unix(), rest)] with the
    nanoseconds left over are both [ts]. *)
Theorem Unix_of_accessors (ts : TS) :
  Int64.in_range ts -> ts <> 0 ->
  Unix 0 (UnixNano ts) = ts
  /\ Unix (TS_Unix ts) (ts - TS_Unix ts * 1000000000) = ts.
Proof.
  intros Hts Hne.
  rewrite (UnixNano_wrap ts Hts), (TS_Unix_floor ts Hts).
  destruct (Z.eqb_spec ts 0); [contradiction|].
  pose proof (Z.div_mod ts 1000000000 ltac:(lia)) as Hdm.
  pose proof (Z.mod_pos_bound ts 1000000000 ltac:(lia)) as Hm.
  assert (Hq : -9223372037 <= ts / 1000000000 <= 9223372037) by (bounds; lia).
  split.
  - rewrite Unix_clamp;
      [|bounds; lia | exact Hts | change (2 ^ 62) with 4611686018427387904; lia].
    destruct (Z.eqb_spec (0 * 1000000000 + ts) (- epochNs)); [bounds; lia|].
    unfold clamp. bounds. lia.
  - rewrite Unix_clamp;
      [| bounds; lia | bounds; lia
       | change (2 ^ 62) with 4611686018427387904; lia].
    replace (ts / 1000000000 * 1000000000
             + (ts - ts / 1000000000 * 1000000000)) with ts by lia.
    destruct (Z.eqb_spec ts (- epochNs)); [bounds; lia|].
    unfold clamp. bounds. lia.
Qed.

Lemma Unix_of_accessors_witness :
  Int64.in_range (-1500000000) /\ -1500000000 <> 0
  /\ Unix 0 (UnixNano (-1500000000)) = -1500000000
  /\ Unix (TS_Unix (-1500000000))
          (-1500000000 - TS_Unix (-1500000000) * 1000000000) = -1500000000.
Proof.
  assert (H : Int64.in_range (-1500000000)) by (bounds; lia).
  assert (Hne : -1500000000 <> 0) by lia.
  split; [exact H|]. split; [exact Hne|].
  exact (Unix_of_accessors (-1500000000) H Hne).
Defined.

(** ** Arithmetic *)

(** X9.  Additions compose on 64 bits, overflow or not: adding [d1] and
    then [d2] is adding their 64-bit sum, and adding back the difference
    [b.Sub(a)] to [a] gives [b]. *)
Theorem Add_compose (a b : TS) (d1 d2 : time.Duration) :
  Int64.in_range a -> Int64.in_range b ->
  Add (Add a d1) d2 = Add a (Int64.add d1 d2)
  /\ Add a (Sub b a) = b.
Proof.
  intros Ha Hb. unfold Add, Sub, Duration, Int64.add, Int64.sub. split.
  - destruct (wrap_spec (a + d1)) as (k1 & -> & _).
    destruct (wrap_spec (d1 + d2)) as (k2 & -> & _).
    apply wrap_congr. exists (k1 - k2). lia.
  - destruct (wrap_spec (b - a)) as (k & -> & _).
    transitivity (Int64.wrap b); [|exact (wrap_small b Hb)].
    apply wrap_congr. exists k. lia.
Qed.

Lemma Add_compose_witness :
  Int64.in_range MaxTS /\ Int64.in_range MinTS
  /\ Add (Add MaxTS 5) (-7) = Add MaxTS (Int64.add 5 (-7))
  /\ Add MaxTS (Sub MinTS MaxTS) = MinTS.
Proof.
  assert (Ha : Int64.in_range MaxTS) by (bounds; lia).
  assert (Hb : Int64.in_range MinTS) by (bounds; lia).
  split; [exact Ha|]. split; [exact Hb|].
  exact (Add_compose MaxTS MinTS 5 (-7) Ha Hb).
Defined.

(** X10.  The sign of [a.Sub(b)] tells the order of [a] and [b] as long
    as the difference fits 64 bits. *)
Theorem Sub_sign (a b : TS) :
  Int64.in_range (a - b) ->
  Sub a b = a - b
  /\ (0 <? Sub a b) = After a b
  /\ (Sub a b <? 0) = Before a b
  /\ (Sub a b =? 0) = Equal a b.
Proof.
  intros Hd. unfold Sub, Duration, Int64.sub, After, Before, Equal.
  rewrite (wrap_small _ Hd).
  repeat split;
    repeat match goal with
           | |- context [?x <? ?y] => destruct (Z.ltb_spec x y)
           | |- context [?x =? ?y] => destruct (Z.eqb_spec x y)
           end; try reflexivity; lia.
Qed.

Lemma Sub_sign_witness :
  Int64.in_range (3 - 10)
  /\ Sub 3 10 = 3 - 10
  /\ (0 <? Sub 3 10) = After 3 10
  /\ (Sub 3 10 <? 0) = Before 3 10
  /\ (Sub 3 10 =? 0) = Equal 3 10.
Proof.
  assert (H : Int64.in_range (3 - 10)) by (bounds; lia).
  split; [exact H | exact (Sub_sign 3 10 H)].
Defined.

(** X11.  Adding a duration commutes with the conversion to
    [time.Time] when the sum fits 64 bits and is not 0.  When the sum is
    0 the two sides part: the time stamp converts to the zero time, the
    time plus [d] is the epoch. *)
Theorem Add_Time (ts : TS) (d : time.Duration) :
  Int64.in_range ts -> Int64.in_range d -> ts <> 0 ->
  Int64.in_range (ts + d) ->
  (ts + d <> 0 -> Time (Add ts d) = time.Add (Time ts) d)
  /\ (ts + d = 0 ->
      Time (Add ts d) = time.zeroTime /\ time.Add (Time ts) d = tZero).
Proof.
  intros Hts Hd Hne Hsum.
  destruct (Time_nanos ts Hts) as (Hw & _ & Hl).
  pose proof (Time_nonzero_nanos ts Hts Hne) as Hn.
  pose proof (Time_sec_bound ts Hts) as Hb.
  destruct (Add_nanos (Time ts) d Hw Hd ltac:(lia)) as (Hw' & Hn' & Hl').
  unfold Add, Int64.add. rewrite (wrap_small _ Hsum). split.
  - intros Hnz. destruct (Time_nanos (ts + d) Hsum) as (Hw2 & _ & Hl2).
    apply nanos_inj; [exact Hw2 | exact Hw' | | congruence].
    rewrite (Time_nonzero_nanos _ Hsum Hnz). lia.
  - intros Hz. rewrite Hz. split; [exact Time_0|].
    apply nanos_inj; [exact Hw' | exact tZero_wf | | rewrite Hl', Hl; reflexivity].
    rewrite nanos_tZero. lia.
Qed.

Lemma Add_Time_witness :
  Int64.in_range 5 /\ Int64.in_range (-5) /\ 5 <> 0 /\ Int64.in_range (5 + -5)
  /\ (5 + -5 = 0 ->
      Time (Add 5 (-5)) = time.zeroTime /\ time.Add (Time 5) (-5) = tZero).
Proof.
  assert (Hts : Int64.in_range 5) by (bounds; lia).
  assert (Hd : Int64.in_range (-5)) by (bounds; lia).
  assert (Hne : 5 <> 0) by lia.
  assert (Hs : Int64.in_range (5 + -5)) by (bounds; lia).
  split; [exact Hts|]. split; [exact Hd|]. split; [exact Hne|].
  split; [exact Hs|].
  exact (proj2 (Add_Time 5 (-5) Hts Hd Hne Hs)).
Defined.

(** ** Operations against a [time.Time] *)

(** A time in range has its seconds far from the ends of [int64]. *)
Lemma in_range_sec (t : time.Time) :
  time.wf t -> MinTS < offset t < MaxTS -> - 2 ^ 62 <= time.sec t <= 2 ^ 62.
Proof.
  intros Ht Ho. change (2 ^ 62) with 4611686018427387904.
  unfold offset, nanos in Ho. bounds. lia.
Qed.

(** X12.  Against a time that is not zero and in range, [SubTime] of a
    time stamp other than 0 is the difference to [Timestamp(t)] cut to
    64 bits: it saturates where [Sub] wraps, and equals [Sub] when the
    difference fits. *)
Theorem SubTime_value (ts : TS) (t : time.Time) :
  Int64.in_range ts -> ts <> 0 ->
  time.wf t -> time.IsZero t = false -> OutOfRange t = false ->
  SubTime ts t = clamp (ts - Timestamp t)
  /\ (Int64.in_range (ts - Timestamp t) ->
      SubTime ts t = Sub ts (Timestamp t)).
Proof.
  intros Hts Hne Ht Hz Hin.
  destruct (in_range_offset t Ht Hz Hin) as (Ho & ->).
  destruct (Time_nanos ts Hts) as (Hw & _ & _).
  assert (Hv : SubTime ts t = clamp (ts - offset t)).
  { unfold SubTime.
    rewrite (Sub_nanos _ _ Hw Ht (in_range_sec t Ht Ho)).
    rewrite (Time_nonzero_nanos ts Hts Hne). f_equal. unfold offset. lia. }
  split; [exact Hv|]. intros Hr. rewrite Hv.
  unfold Sub, Duration, Int64.sub. rewrite (wrap_small _ Hr).
  unfold clamp. bounds. lia.
Qed.

Lemma SubTime_value_witness :
  Int64.in_range MaxTS /\ MaxTS <> 0
  /\ time.wf (Time (MinTS + 1)) /\ time.IsZero (Time (MinTS + 1)) = false
  /\ OutOfRange (Time (MinTS + 1)) = false
  /\ SubTime MaxTS (Time (MinTS + 1))
     = clamp (MaxTS - Timestamp (Time (MinTS + 1))).
Proof.
  assert (Hts : Int64.in_range MaxTS) by (bounds; lia).
  assert (Hne : MaxTS <> 0) by (bounds; lia).
  assert (Ht : time.wf (Time (MinTS + 1)))
    by (vm_compute; repeat split; first [reflexivity | discriminate]).
  assert (Hz : time.IsZero (Time (MinTS + 1)) = false) by reflexivity.
  assert (Hin : OutOfRange (Time (MinTS + 1)) = false) by reflexivity.
  split; [exact Hts|]. split; [exact Hne|]. split; [exact Ht|].
  split; [exact Hz|]. split; [exact Hin|].
  exact (proj1 (SubTime_value MaxTS (Time (MinTS + 1)) Hts Hne Ht Hz Hin)).
Defined.

(** X13.  Against a time that is not zero and in range, [EqualTime],
    [AfterTime] and [BeforeTime] of a time stamp other than 0 are
    [Equal], [After] and [Before] against [Timestamp(t)]. *)
Theorem compare_Time (ts : TS) (t : time.Time) :
  Int64.in_range ts -> ts <> 0 ->
  time.wf t -> time.IsZero t = false -> OutOfRange t = false ->
  EqualTime ts t = Equal ts (Timestamp t)
  /\ AfterTime ts t = After ts (Timestamp t)
  /\ BeforeTime ts t = Before ts (Timestamp t).
Proof.
  intros Hts Hne Ht Hz Hin.
  destruct (in_range_offset t Ht Hz Hin) as (Ho & ->).
  destruct (Time_nanos ts Hts) as (Hw & _ & _).
  pose proof (Time_nonzero_nanos ts Hts Hne) as Hn.
  unfold EqualTime, AfterTime, BeforeTime, Equal, After, Before.
  rewrite (Equal_nanos _ _ Hw Ht), (After_nanos _ _ Hw Ht),
    (Before_nanos _ _ Hw Ht), Hn.
  unfold offset.
  repeat split;
    repeat match goal with
           | |- context [?x <? ?y] => destruct (Z.ltb_spec x y)
           | |- context [?x =? ?y] => destruct (Z.eqb_spec x y)
           end; try reflexivity; lia.
Qed.

Lemma compare_Time_witness :
  Int64.in_range 7 /\ 7 <> 0
  /\ time.wf (time.Unix 0 0) /\ time.IsZero (time.Unix 0 0) = false
  /\ OutOfRange (time.Unix 0 0) = false
  /\ EqualTime 7 (time.Unix 0 0) = Equal 7 (Timestamp (time.Unix 0 0))
  /\ AfterTime 7 (time.Unix 0 0) = After 7 (Timestamp (time.Unix 0 0))
  /\ BeforeTime 7 (time.Unix 0 0) = Before 7 (Timestamp (time.Unix 0 0)).
Proof.
  assert (Hts : Int64.in_range 7) by (bounds; lia).
  assert (Hne : 7 <> 0) by lia.
  assert (Ht : time.wf (time.Unix 0 0))
    by (vm_compute; repeat split; first [reflexivity | discriminate]).
  assert (Hz : time.IsZero (time.Unix 0 0) = false) by reflexivity.
  assert (Hin : OutOfRange (time.Unix 0 0) = false) by reflexivity.
  split; [exact Hts|]. split; [exact Hne|]. split; [exact Ht|].
  split; [exact Hz|]. split; [exact Hin|].
  exact (compare_Time 7 (time.Unix 0 0) Hts Hne Ht Hz Hin).
Defined.

(** ** Truncation *)

(** X14.  Truncating twice by the same positive duration is truncating
    once, whenever the floor multiple is representable. *)
Theorem Truncate_idempotent (ts : TS) (d : time.Duration) :
  Int64.in_range ts -> Int64.in_range d -> 0 < d ->
  MinTS <= d * (ts / d) ->
  Truncate (Truncate ts d) d = Truncate ts d.
Proof.
  intros Hts Hd Hpos Hmin.
  rewrite (Truncate_floor ts d Hts Hd Hpos Hmin).
  pose proof (Z.div_mod ts d ltac:(lia)) as Hdm.
  pose proof (Z.mod_pos_bound ts d Hpos) as Hm.
  assert (Hq : d * (ts / d) / d = ts / d).
  { rewrite Z.mul_comm. apply Z.div_mul. lia. }
  rewrite Truncate_floor; rewrite ?Hq; try assumption; try reflexivity.
  bounds. lia.
Qed.

Lemma Truncate_idempotent_witness :
  Int64.in_range (-7) /\ Int64.in_range 3 /\ 0 < 3 /\ MinTS <= 3 * (-7 / 3)
  /\ Truncate (Truncate (-7) 3) 3 = Truncate (-7) 3.
Proof.
  assert (Hts : Int64.in_range (-7)) by (bounds; lia).
  assert (Hd : Int64.in_range 3) by (bounds; lia).
  assert (Hpos : 0 < 3) by lia.
  assert (Hmin : MinTS <= 3 * (-7 / 3)) by (vm_compute; discriminate).
  split; [exact Hts|]. split; [exact Hd|]. split; [exact Hpos|].
  split; [exact Hmin|].
  exact (Truncate_idempotent (-7) 3 Hts Hd Hpos Hmin).
Defined.

(** X15.  Truncation by a positive duration keeps the order of time
    stamps, whenever the floor multiple of the smaller one is
    representable; and it moves a time stamp down by less than [d]. *)
Theorem Truncate_monotone (a b : TS) (d : time.Duration) :
  Int64.in_range a -> Int64.in_range b -> Int64.in_range d -> 0 < d ->
  MinTS <= d * (a / d) -> a <= b ->
  Truncate a d <= Truncate b d /\ 0 <= a - Truncate a d < d.
Proof.
  intros Ha Hb Hd Hpos Hmin Hab.
  assert (Hq : a / d <= b / d) by (apply Z.div_le_mono; lia).
  rewrite (Truncate_floor a d Ha Hd Hpos Hmin).
  rewrite (Truncate_floor b d Hb Hd Hpos ltac:(nia)).
  pose proof (Z.div_mod a d ltac:(lia)) as Hdm.
  pose proof (Z.mod_pos_bound a d Hpos) as Hm.
  split; [nia | lia].
Qed.

Lemma Truncate_monotone_witness :
  Int64.in_range (-7) /\ Int64.in_range 2 /\ Int64.in_range 3 /\ 0 < 3
  /\ MinTS <= 3 * (-7 / 3) /\ -7 <= 2
  /\ Truncate (-7) 3 <= Truncate 2 3 /\ 0 <= -7 - Truncate (-7) 3 < 3.
Proof.
  assert (Ha : Int64.in_range (-7)) by (bounds; lia).
  assert (Hb : Int64.in_range 2) by (bounds; lia).
  assert (Hd : Int64.in_range 3) by (bounds; lia).
  assert (Hpos : 0 < 3) by lia.
  assert (Hmin : MinTS <= 3 * (-7 / 3)) by (vm_compute; discriminate).
  assert (Hab : -7 <= 2) by lia.
  split; [exact Ha|]. split; [exact Hb|]. split; [exact Hd|].
  split; [exact Hpos|]. split; [exact Hmin|]. split; [exact Hab|].
  exact (Truncate_monotone (-7) 2 3 Ha Hb Hd Hpos Hmin Hab).
Defined.

(** X16.  [Truncate] computes what the line it replaced would:
    [Timestamp(ts.Time().Truncate(d))], for every positive [d] that
    divides the distance from the zero time to the epoch and every [ts]
    whose floor multiple is representable, time stamps below [d]
    included. *)
Theorem Truncate_via_Time (ts : TS) (d : time.Duration) :
  Int64.in_range ts -> Int64.in_range d -> 0 < d ->
  epochNs mod d = 0 ->
  MinTS <= d * (ts / d) ->
  Truncate ts d = Timestamp (TruncateTime ts d).
Proof.
  intros Hts Hd Hpos Hdiv Hmin.
  rewrite (Truncate_floor ts d Hts Hd Hpos Hmin).
  pose proof (Z.div_mod ts d ltac:(lia)) as Hdm.
  pose proof (Z.mod_pos_bound ts d Hpos) as Hm.
  destruct (Time_nanos ts Hts) as (Hw & Hn & _).
  pose proof (Time_sec_bound ts Hts) as Hb.
  destruct (time_Truncate_nanos (Time ts) d Hw Hb Hd Hpos) as (Hw2 & Hn2 & _).
  unfold TruncateTime, Timestamp.
  rewrite (IsZero_nanos _ Hw2), (Sub_tZero _ Hw2). unfold offset.
  rewrite Hn2, Hn.
  destruct (Z.eqb_spec ts 0) as [-> | Hne].
  - rewrite Z.div_0_l, Z.mul_0_r, Z.mod_0_l by lia. reflexivity.
  - assert (Hmod : (epochNs + ts) mod d = ts mod d).
    { apply Z.div_exact in Hdiv; [|lia]. rewrite Hdiv.
      rewrite Z.add_comm, Z.mul_comm. apply Z.mod_add. lia. }
    rewrite Hmod.
    destruct (Z.eqb_spec (epochNs + ts - ts mod d) 0); [bounds; lia|].
    unfold clamp. bounds. lia.
Qed.

Lemma Truncate_via_Time_witness :
  Int64.in_range 5 /\ Int64.in_range 10 /\ 0 < 10 /\ epochNs mod 10 = 0
  /\ MinTS <= 10 * (5 / 10)
  /\ Truncate 5 10 = Timestamp (TruncateTime 5 10).
Proof.
  assert (Hts : Int64.in_range 5) by (bounds; lia).
  assert (Hd : Int64.in_range 10) by (bounds; lia).
  assert (Hpos : 0 < 10) by lia.
  assert (Hdiv : epochNs mod 10 = 0) by reflexivity.
  assert (Hmin : MinTS <= 10 * (5 / 10)) by (vm_compute; discriminate).
  split; [exact Hts|]. split; [exact Hd|]. split; [exact Hpos|].
  split; [exact Hdiv|]. split; [exact Hmin|].
  exact (Truncate_via_Time 5 10 Hts Hd Hpos Hdiv Hmin).
Defined.

(** ** Locations *)

(** X17.  [ts.In(loc)] panics on a nil location.  With a location it
    returns the instant of [ts.Time()], and with the location that
    [ts.Location()] reports it returns [ts.Time()] itself. *)
Theorem In_location (ts : TS) (l : time.Location) :
  Int64.in_range ts ->
  In ts None = None
  /\ (exists t, In ts (Some l) = Some t
                /\ time.Equal t (Time ts) = true
                /\ nanos t = nanos (Time ts))
  /\ In ts (Location ts) = Some (Time ts).
Proof.
  intros Hts. destruct (Time_nanos ts Hts) as (_ & _ & Hl).
  split; [reflexivity|]. split.
  - unfold In, time.In.
    destruct l; eexists; (split; [reflexivity|]);
      unfold time.Equal, nanos; cbn [time.sec time.nsec];
      rewrite !Z.eqb_refl; split; reflexivity.
  - unfold In, Location, time.In. f_equal.
    destruct (Time ts) as [s n lo]. simpl in Hl. subst lo. reflexivity.
Qed.

Lemma In_location_witness :
  Int64.in_range 5
  /\ In 5 None = None
  /\ (exists t, In 5 (Some time.localLoc) = Some t
                /\ time.Equal t (Time 5) = true
                /\ nanos t = nanos (Time 5))
  /\ In 5 (Location 5) = Some (Time 5).
Proof.
  assert (H : Int64.in_range 5) by (bounds; lia).
  split; [exact H | exact (In_location 5 time.localLoc H)].
Defined.
